(** * Aircraft monitor: geometry engine, decision engine and poll loop

    Shallow embedding of [aircraft_monitor.py].

    Numbers.  A Python [float] is modelled by [pyfloat]: an exact real
    ([Fin r]), one of the two infinities, or NaN.  Arithmetic on finite
    values is exact real arithmetic (binary64 rounding, overflow and
    underflow are outside the model); arithmetic on the special values
    follows IEEE 754 as Python exposes it.  JSON integers met by the code
    are always combined with a float before use, so they are read as
    reals as well.  The numeric fields of a flight record are JSON
    numbers, hence finite: they have type [R].  Thresholds read with
    [float(os.getenv(..))] can be any [pyfloat]; thresholds read with
    [int(os.getenv(..))] are integers.

    Exceptions.  Operations that raise in Python ([/] on a zero divisor,
    [math.sqrt] of a negative number, [math.sin] of an infinity, reading a
    local that was never bound, a float format code applied to a string)
    return [Raise e] in the [result] monad. *)

From Stdlib Require Import Reals Lra Bool List String Ascii ZArith DecimalString.
From Stdlib Require Floats.
Import ListNotations.

Local Open Scope R_scope.

(** ** Exceptions and the error monad *)

Inductive exn : Type :=
| ZeroDivisionError
| ValueError
| UnboundLocalError.

Inductive result (A : Type) : Type :=
| Ok (a : A)
| Raise (e : exn).
Arguments Ok {A} a.
Arguments Raise {A} e.

Definition bind {A B : Type} (m : result A) (k : A -> result B) : result B :=
  match m with
  | Ok a => k a
  | Raise e => Raise e
  end.

Declare Scope result_scope.
Delimit Scope result_scope with result.
Notation "x <- m ;; k" := (bind m (fun x => k))
  (at level 61, m at next level, right associativity) : result_scope.

(** ** Python floats *)

Inductive pyfloat : Type :=
| Fin (r : R)
| PInf
| NInf
| NaN.

Definition Reqb (x y : R) : bool := if Req_dec_T x y then true else false.
Definition Rltb (x y : R) : bool := if Rlt_dec x y then true else false.
Definition Rleb (x y : R) : bool := if Rle_dec x y then true else false.

(** [x == y], [x < y] and [x <= y]: every comparison with NaN is false. *)
Definition pf_eqb (x y : pyfloat) : bool :=
  match x, y with
  | Fin a, Fin b => Reqb a b
  | PInf, PInf | NInf, NInf => true
  | _, _ => false
  end.

Definition pf_ltb (x y : pyfloat) : bool :=
  match x, y with
  | Fin a, Fin b => Rltb a b
  | NInf, Fin _ | NInf, PInf | Fin _, PInf => true
  | _, _ => false
  end.

Definition pf_leb (x y : pyfloat) : bool :=
  match x, y with
  | Fin a, Fin b => Rleb a b
  | NInf, Fin _ | NInf, PInf | Fin _, PInf => true
  | PInf, PInf | NInf, NInf => true
  | _, _ => false
  end.

(** [math.isfinite]. *)
Definition pf_finite (x : pyfloat) : bool :=
  match x with
  | Fin _ => true
  | _ => false
  end.

Definition pf_neg (x : pyfloat) : pyfloat :=
  match x with
  | Fin a => Fin (- a)
  | PInf => NInf
  | NInf => PInf
  | NaN => NaN
  end.

Definition pf_add (x y : pyfloat) : pyfloat :=
  match x, y with
  | Fin a, Fin b => Fin (a + b)
  | NaN, _ | _, NaN => NaN
  | PInf, NInf | NInf, PInf => NaN
  | PInf, _ | _, PInf => PInf
  | NInf, _ | _, NInf => NInf
  end.

Definition pf_sub (x y : pyfloat) : pyfloat := pf_add x (pf_neg y).

(** An infinity times a finite value: the sign rule, NaN at zero. *)
Definition inf_times (positive : bool) (a : R) : pyfloat :=
  if Rltb 0 a then (if positive then PInf else NInf)
  else if Rltb a 0 then (if positive then NInf else PInf)
  else NaN.

Definition pf_mul (x y : pyfloat) : pyfloat :=
  match x, y with
  | Fin a, Fin b => Fin (a * b)
  | NaN, _ | _, NaN => NaN
  | PInf, Fin a | Fin a, PInf => inf_times true a
  | NInf, Fin a | Fin a, NInf => inf_times false a
  | PInf, PInf | NInf, NInf => PInf
  | PInf, NInf | NInf, PInf => NInf
  end.

(** [x / y]: Python raises on a zero divisor before looking at [x]. *)
Definition pf_div (x y : pyfloat) : result pyfloat :=
  match y with
  | Fin b =>
      if Reqb b 0 then Raise ZeroDivisionError
      else Ok (match x with
               | Fin a => Fin (a / b)
               | PInf => inf_times true b
               | NInf => inf_times false b
               | NaN => NaN
               end)
  | PInf | NInf =>
      Ok (match x with
          | Fin _ => Fin 0
          | _ => NaN
          end)
  | NaN => Ok NaN
  end.

(** [x ** 2]. *)
Definition pf_sq (x : pyfloat) : pyfloat :=
  match x with
  | Fin a => Fin (a ^ 2)
  | PInf | NInf => PInf
  | NaN => NaN
  end.

(** [math.sqrt], [math.sin], [math.cos]: domain errors are [ValueError]. *)
Definition math_sqrt (x : pyfloat) : result pyfloat :=
  match x with
  | Fin a => if Rltb a 0 then Raise ValueError else Ok (Fin (sqrt a))
  | PInf => Ok PInf
  | NInf => Raise ValueError
  | NaN => Ok NaN
  end.

Definition math_sin (x : pyfloat) : result pyfloat :=
  match x with
  | Fin a => Ok (Fin (sin a))
  | PInf | NInf => Raise ValueError
  | NaN => Ok NaN
  end.

Definition math_cos (x : pyfloat) : result pyfloat :=
  match x with
  | Fin a => Ok (Fin (cos a))
  | PInf | NInf => Raise ValueError
  | NaN => Ok NaN
  end.

Definition math_pi : pyfloat := Fin PI.

(** ** Data model *)

(** [flight["position"]]: latitude and longitude are read with [[..]],
    the other three with [.get] and a default. *)
Record Position : Type := mkPosition {
  latitude : R;
  longitude : R;
  altitude : option R;
  ground_speed : option R;
  heading : option R
}.

(** A flight record.  [None] in a label field stands for a missing key or
    a JSON null. *)
Record Flight : Type := mkFlight {
  number : option string;
  callsign : option string;
  icao_24bit : option string;
  aircraft_code : option string;
  position : Position
}.

(** The module-level constants read from the environment. *)
Record Config : Type := mkConfig {
  LOW_ALTITUDE_THRESHOLD_M : Z;
  TARGET_AIRCRAFT_CODE : option string;
  ALERT_DISTANCE_THRESHOLD_KM : pyfloat;
  ALERT_TIME_THRESHOLD_MIN : pyfloat;
  ALERT_ALTITUDE_THRESHOLD_M : pyfloat
}.

(** [d.get(key, default)] on a numeric field. *)
Definition get (field : option R) (default : pyfloat) : pyfloat :=
  match field with
  | Some v => Fin v
  | None => default
  end.

(** ** Geometry engine *)

Local Open Scope result_scope.

Definition feet_to_meters (feet : pyfloat) : pyfloat :=
  pf_mul feet (Fin 0.3048).

Definition calculate_distance (flight : Flight) (lat lon : R) : result pyfloat :=
  let pos := position flight in
  let lat0 := Fin (latitude pos) in
  let lon0 := Fin (longitude pos) in
  let alt_m := feet_to_meters (get (altitude pos) (Fin 0)) in
  let dx_km := pf_mul (pf_sub lat0 (Fin lat)) (Fin 111) in
  let dy_km := pf_mul (pf_sub lon0 (Fin lon)) (Fin 111) in
  horizontal_distance_km <- math_sqrt (pf_add (pf_sq dx_km) (pf_sq dy_km)) ;;
  let horizontal_distance_m := pf_mul horizontal_distance_km (Fin 1000) in
  distance_3d_m <- math_sqrt (pf_add (pf_sq horizontal_distance_m) (pf_sq alt_m)) ;;
  pf_div distance_3d_m (Fin 1000).

Definition deg2rad (deg : pyfloat) : result pyfloat :=
  pf_div (pf_mul deg math_pi) (Fin 180).

Definition time_until_closest (flight : Flight) (lat lon : R) : result pyfloat :=
  let pos := position flight in
  let lat0 := Fin (latitude pos) in
  let lon0 := Fin (longitude pos) in
  let speed_kmh := get (ground_speed pos) (Fin 0) in
  let heading_deg := get (heading pos) (Fin 0) in
  if pf_eqb speed_kmh (Fin 0) then Ok PInf
  else
    heading_rad <- deg2rad heading_deg ;;
    s <- math_sin heading_rad ;;
    let vx := pf_mul s speed_kmh in
    c <- math_cos heading_rad ;;
    let vy := pf_mul c speed_kmh in
    let dx := pf_mul (pf_sub lat0 (Fin lat)) (Fin 111) in
    let dy := pf_mul (pf_sub lon0 (Fin lon)) (Fin 111) in
    let dot := pf_add (pf_mul dx vx) (pf_mul dy vy) in
    let speed_sq := pf_add (pf_sq vx) (pf_sq vy) in
    t_cpa <- (if negb (pf_eqb speed_sq (Fin 0))
              then pf_div (pf_neg dot) speed_sq
              else Ok PInf) ;;
    if pf_ltb t_cpa (Fin 0) then Ok PInf
    else Ok (pf_mul t_cpa (Fin 60)).

(** ** Closed forms used by the statements *)

(** The value [calculate_distance] computes, as a real number. *)
Definition distance_value (flight : Flight) (lat lon : R) : R :=
  let pos := position flight in
  let alt_m := match altitude pos with Some a => a | None => 0 end * 0.3048 in
  let dx_km := (latitude pos - lat) * 111 in
  let dy_km := (longitude pos - lon) * 111 in
  sqrt ((sqrt (dx_km ^ 2 + dy_km ^ 2) * 1000) ^ 2 + alt_m ^ 2) / 1000.

(** The closest-approach time of the source's formula, in hours. *)
Definition t_cpa_value (flight : Flight) (lat lon : R) : R :=
  let pos := position flight in
  let speed_kmh := match ground_speed pos with Some v => v | None => 0 end in
  let heading_deg := match heading pos with Some h => h | None => 0 end in
  let heading_rad := heading_deg * PI / 180 in
  let vx := sin heading_rad * speed_kmh in
  let vy := cos heading_rad * speed_kmh in
  let dx := (latitude pos - lat) * 111 in
  let dy := (longitude pos - lon) * 111 in
  - (dx * vx + dy * vy) / (vx ^ 2 + vy ^ 2).

(** ** Decision engine *)

Section Decision.
Variable cfg : Config.

Definition is_target_aircraft (flight : Flight) : bool :=
  match aircraft_code flight, TARGET_AIRCRAFT_CODE cfg with
  | Some a, Some b => String.eqb a b
  | None, None => true
  | _, _ => false
  end.

Definition is_low_altitude (flight : Flight) : bool :=
  let altitude_ft := get (altitude (position flight)) PInf in
  let altitude_m := feet_to_meters altitude_ft in
  pf_ltb altitude_m (Fin (IZR (LOW_ALTITUDE_THRESHOLD_M cfg))).

Definition should_send_alert (flight : Flight) (lat lon : R) : result bool :=
  let altitude_ft := get (altitude (position flight)) PInf in
  let altitude_m := feet_to_meters altitude_ft in
  distance_km <- calculate_distance flight lat lon ;;
  time_until_closest_min <- time_until_closest flight lat lon ;;
  Ok (pf_leb altitude_m (ALERT_ALTITUDE_THRESHOLD_M cfg) &&
      pf_leb distance_km (ALERT_DISTANCE_THRESHOLD_KM cfg) &&
      pf_leb time_until_closest_min (ALERT_TIME_THRESHOLD_MIN cfg)).

End Decision.

(** ** Poll loop *)

(** What [monitor_flights] does to the outside world: a line on the
    console, or a call of [send_email_alert]. *)
Inductive event : Type :=
| Print (line : string)
| SendEmail (subject message : string).

(** A computation that has written a trace and then returned or raised. *)
Definition io (A : Type) : Type := (list event * result A)%type.

Definition io_ret {A : Type} (a : A) : io A := ([], Ok a).

Definition io_bind {A B : Type} (m : io A) (k : A -> io B) : io B :=
  match m with
  | (t, Ok a) => let (t', r) := k a in (t ++ t', r)
  | (t, Raise e) => (t, Raise e)
  end.

Definition io_lift {A : Type} (r : result A) : io A := ([], r).

Definition print (line : string) : io unit := ([Print line], Ok tt).

Definition send_email_alert (subject message : string) : io unit :=
  ([SendEmail subject message], Ok tt).

Declare Scope io_scope.
Delimit Scope io_scope with io.
Notation "x <- m ;; k" := (io_bind m (fun x => k))
  (at level 61, m at next level, right associativity) : io_scope.
Notation "m ;; k" := (io_bind m (fun _ => k))
  (at level 61, right associativity) : io_scope.

(** [str(v)] of a label field. *)
Definition str (v : option string) : string :=
  match v with
  | Some s => s
  | None => "None"
  end.

(** [str(n)] of a length. *)
Definition str_of_nat (n : nat) : string :=
  DecimalString.NilEmpty.string_of_uint (Nat.to_uint n).

(** The test of the generator in [flight_id]: [v and v != "N/A"]. *)
Definition usable_label (v : option string) : bool :=
  match v with
  | Some s => negb (String.eqb s "") && negb (String.eqb s "N/A")
  | None => false
  end.

(** The labels that test rejects: absent, empty, or the text N/A. *)
Definition blank_label (v : option string) : Prop :=
  v = None \/ v = Some ""%string \/ v = Some "N/A"%string.

(** [next(iterator, default)]. *)
Definition next {A : Type} (it : list A) (default : A) : A :=
  match it with
  | x :: _ => x
  | [] => default
  end.

Definition flight_id (flight : Flight) : option string :=
  next (filter usable_label [number flight; callsign flight; icao_24bit flight])
       (Some "N/A"%string).

(** The feed's answer to one poll. *)
Record Response : Type := mkResponse {
  found : bool;
  flights : list Flight
}.

(** [altitude_m] in the loop body is a float or the string "unknown". *)
Inductive float_or_str : Type :=
| IsFloat (x : pyfloat)
| IsStr (s : string).

(** The literal heads of the two console lines, byte for byte, and the
    newline that opens the header line. *)
Definition LOW_PREFIX : string := "ðŸš¨ LOW ALTITUDE ALERT: ".
Definition INFO_PREFIX : string := "â„¹ï¸ ".
Definition NEWLINE : string := String (ascii_of_nat 10) EmptyString.

Section Monitor.
Variable cfg : Config.

(** [format(x, ".<digits>f")] of a float, as the f-strings use it. *)
Variable format_f : nat -> pyfloat -> string.

(** The same format code on [altitude_m]: a string does not accept it. *)
Definition format_altitude (digits : nat) (v : float_or_str) : result string :=
  match v with
  | IsFloat x => Ok (format_f digits x)
  | IsStr _ => Raise ValueError
  end.

Definition detail (flight_id : option string) (altitude : string)
    (distance_km minutes_until_closest : pyfloat) : string :=
  (str (TARGET_AIRCRAFT_CODE cfg) ++ " " ++ str flight_id ++ " "
   ++ "at " ++ altitude ++ "m, " ++ format_f 1 distance_km ++ "km away, "
   ++ format_f 1 minutes_until_closest ++ " minutes until closest approach.")%string.

Definition detail_info (flight_id : option string) (altitude : string)
    (distance_km minutes_until_closest : pyfloat) : string :=
  (str (TARGET_AIRCRAFT_CODE cfg) ++ " detected: " ++ str flight_id ++ " "
   ++ "at " ++ altitude ++ "m, " ++ format_f 1 distance_km ++ "km away, "
   ++ format_f 1 minutes_until_closest ++ " minutes until closest approach.")%string.

Local Open Scope io_scope.

(** One pass of the inner [for] loop.  [alert_message] is the local
    variable of that name: [None] while it is unbound. *)
Definition process_flight (lat lon : R) (alert_message : option string)
    (flight : Flight) : io (option string) :=
  let flight_id := flight_id flight in
  let altitude_m :=
    match altitude (position flight) with
    | Some a => IsFloat (feet_to_meters (Fin a))
    | None => IsStr "unknown"
    end in
  distance_km <- io_lift (calculate_distance flight lat lon) ;;
  minutes_until_closest <- io_lift (time_until_closest flight lat lon) ;;
  alert_message <-
    (if is_low_altitude cfg flight then
       a <- io_lift (format_altitude 0 altitude_m) ;;
       let message :=
         (LOW_PREFIX ++ detail flight_id a distance_km minutes_until_closest)%string in
       print message ;;
       io_ret (Some message)
     else
       a <- io_lift (format_altitude 0 altitude_m) ;;
       print (INFO_PREFIX
              ++ detail_info flight_id a distance_km minutes_until_closest)%string ;;
       io_ret alert_message) ;;
  send <- io_lift (should_send_alert cfg flight lat lon) ;;
  if send : bool then
    message <- io_lift (match alert_message with
                        | Some m => Ok m
                        | None => Raise UnboundLocalError
                        end) ;;
    send_email_alert ("Aircraft " ++ str (TARGET_AIRCRAFT_CODE cfg) ++ " Alert")%string
                     message ;;
    io_ret alert_message
  else
    print "Alert thresholds not met. Skipping email." ;;
    io_ret alert_message.

(** The [for] loop over the target aircraft, threading [alert_message]. *)
Fixpoint process_flights (lat lon : R) (alert_message : option string)
    (target : list Flight) : io (option string) :=
  match target with
  | [] => io_ret alert_message
  | flight :: rest =>
      alert_message <- process_flight lat lon alert_message flight ;;
      process_flights lat lon alert_message rest
  end.

(** The body of [while True] for one answer of the feed; the closing
    [time.sleep] leaves no trace. *)
Definition poll_cycle (lat lon : R) (alert_message : option string)
    (flights_data : Response) : io (option string) :=
  print ("Found " ++ str_of_nat (List.length (flights flights_data))
         ++ " flights in radius.")%string ;;
  if found flights_data then
    let target_aircrafts_found := filter (is_target_aircraft cfg) (flights flights_data) in
    match target_aircrafts_found with
    | _ :: _ =>
        print (NEWLINE ++ "--- " ++ str_of_nat (List.length target_aircrafts_found) ++ " "
               ++ str (TARGET_AIRCRAFT_CODE cfg) ++ "(s) detected ---")%string ;;
        alert_message <- process_flights lat lon alert_message target_aircrafts_found ;;
        print "---" ;;
        io_ret alert_message
    | [] =>
        print ("No " ++ str (TARGET_AIRCRAFT_CODE cfg) ++ "s detected in this poll.")%string ;;
        io_ret alert_message
    end
  else io_ret alert_message.

(** [monitor_flights] run against the successive answers of the feed;
    [alert_message] starts unbound. *)
Fixpoint monitor_from (lat lon : R) (alert_message : option string)
    (feed : list Response) : io (option string) :=
  match feed with
  | [] => io_ret alert_message
  | flights_data :: later =>
      alert_message <- poll_cycle lat lon alert_message flights_data ;;
      monitor_from lat lon alert_message later
  end.

Definition monitor_flights (lat lon : R) (feed : list Response) : io (option string) :=
  monitor_from lat lon None feed.

End Monitor.

(** ** Example configurations and flights *)

(** One degree north of the origin, at sea level, 500 km/h, heading 180. *)
Definition flight_closing : Flight :=
  mkFlight None None None None (mkPosition 1 0 (Some 0) (Some 500) (Some 180)).

(** One degree east of the origin, same altitude, speed and heading. *)
Definition flight_east : Flight :=
  mkFlight None None None None (mkPosition 0 1 (Some 0) (Some 500) (Some 180)).

(** The flight of [flight_closing] heading 0. *)
Definition flight_receding : Flight :=
  mkFlight None None None None (mkPosition 1 0 (Some 0) (Some 500) (Some 0)).

(** A position with only the two mandatory fields. *)
Definition nowhere : Position := mkPosition 0 0 None None None.

(** No label, no altitude, no speed. *)
Definition flight_unlabelled : Flight :=
  mkFlight None None None None nowhere.

(** The feed's placeholder as flight number, a real callsign. *)
Definition flight_placeholder_number : Flight :=
  mkFlight (Some "N/A"%string) (Some "BAW117"%string) None None nowhere.

(** Low-altitude threshold 500 m, target A400, alerts within 50 km,
    30 minutes and 1000 m. *)
Definition cfg_example : Config :=
  mkConfig 500 (Some "A400"%string) (Fin 50) (Fin 30) (Fin 1000).

(** A target aircraft right over the observer at the origin, at the given
    altitude in feet. *)
Definition flight_over (label : string) (feet : R) : Flight :=
  mkFlight (Some label) None None (Some "A400"%string)
           (mkPosition 0 0 (Some feet) (Some 500) (Some 0)).

(** At 2000 ft: above the low-altitude threshold of 500 m, inside every
    alert threshold. *)
Definition flight_overhead : Flight := flight_over "RRR4001" 2000.

(** At 1000 ft: below the low-altitude threshold as well. *)
Definition flight_low : Flight := flight_over "RRR4002" 1000.

(** A formatter for the instances; the statements hold for any. *)
Definition format_whole (digits : nat) (x : pyfloat) : string := "0"%string.

(** ** Further functions and helpers of the statements *)


(** The same flight record with one field of its position replaced. *)
Definition with_position (flight : Flight) (pos : Position) : Flight :=
  mkFlight (number flight) (callsign flight) (icao_24bit flight)
           (aircraft_code flight) pos.



Definition moved_by (flight : Flight) (dlat dlon : R) : Flight :=
  let pos := position flight in
  with_position flight
    (mkPosition (latitude pos + dlat) (longitude pos + dlon) (altitude pos)
                (ground_speed pos) (heading pos)).



(** The number of emails in a trace. *)
Fixpoint count_emails (trace : list event) : nat :=
  match trace with
  | [] => 0
  | SendEmail _ _ :: rest => S (count_emails rest)
  | Print _ :: rest => count_emails rest
  end.

(** The configuration with other alert thresholds. *)
Definition with_thresholds (cfg : Config) (distance minutes alt : pyfloat) : Config :=
  mkConfig (LOW_ALTITUDE_THRESHOLD_M cfg) (TARGET_AIRCRAFT_CODE cfg)
           distance minutes alt.

(** ** The closest-approach formula in binary64

    The same statements of [time_until_closest] on IEEE 754 doubles, for
    the two worked examples.  [math.sin] and [math.cos] belong to the C
    library and are parameters; [x ** 2] is read as the correctly rounded
    square.  The arguments are the values the function works on once the
    defaults of [.get] are applied. *)
Module Binary64.
Import PrimFloat.

Definition pi : float := 0x1.921fb54442d18p+1%float.

Section Libm.
Variables libm_sin libm_cos : float -> float.

Definition time_until_closest (lat0 lon0 speed_kmh heading_deg lat lon : float)
    : result float :=
  if (speed_kmh =? 0)%float then Ok infinity
  else
    let heading_rad := (heading_deg * pi / 180)%float in
    let vx := (libm_sin heading_rad * speed_kmh)%float in
    let vy := (libm_cos heading_rad * speed_kmh)%float in
    let dx := ((lat0 - lat) * 111)%float in
    let dy := ((lon0 - lon) * 111)%float in
    let dot := (dx * vx + dy * vy)%float in
    let speed_sq := (vx * vx + vy * vy)%float in
    t_cpa <- (if negb (speed_sq =? 0)%float
              then Ok (- dot / speed_sq)%float
              else Ok infinity) ;;
    if (t_cpa <? 0)%float then Ok infinity
    else Ok (t_cpa * 60)%float.

End Libm.
End Binary64.

(** ** Comparison lemmas *)

Lemma Reqb_true (x y : R) : Reqb x y = true <-> x = y.
Proof. unfold Reqb. destruct (Req_dec_T x y); split; congruence. Qed.

Lemma Reqb_false (x y : R) : Reqb x y = false <-> x <> y.
Proof. unfold Reqb. destruct (Req_dec_T x y); split; congruence. Qed.

Lemma Rltb_true (x y : R) : Rltb x y = true <-> x < y.
Proof. unfold Rltb. destruct (Rlt_dec x y); split; congruence. Qed.

Lemma Rltb_false (x y : R) : Rltb x y = false <-> ~ x < y.
Proof. unfold Rltb. destruct (Rlt_dec x y); split; congruence. Qed.

Lemma Rleb_true (x y : R) : Rleb x y = true <-> x <= y.
Proof. unfold Rleb. destruct (Rle_dec x y); split; congruence. Qed.


Lemma Ok_Fin_inj (a b : R) : Ok (Fin a) = Ok (Fin b) -> a = b.
Proof. intros H. congruence. Qed.

Lemma Fin_inj (a b : R) : Fin a = Fin b -> a = b.
Proof. intros H. congruence. Qed.

(** ** The geometry engine in closed form *)

Lemma sum_sq_not_neg (a b : R) : Rltb (a ^ 2 + b ^ 2) 0 = false.
Proof. apply Rltb_false. nra. Qed.

Lemma feet_to_meters_Fin (a : R) : feet_to_meters (Fin a) = Fin (a * 0.3048).
Proof. reflexivity. Qed.

Lemma feet_to_meters_PInf : feet_to_meters PInf = PInf.
Proof.
  unfold feet_to_meters, pf_mul, inf_times.
  replace (Rltb 0 0.3048) with true; [reflexivity|].
  symmetry. apply Rltb_true. lra.
Qed.

Lemma calculate_distance_value (flight : Flight) (lat lon : R) :
  calculate_distance flight lat lon = Ok (Fin (distance_value flight lat lon)).
Proof.
  unfold calculate_distance, distance_value.
  destruct flight as [n c i a [lat0 lon0 alt spd hd]]; cbn [position latitude longitude altitude].
  assert (Halt : feet_to_meters (get alt (Fin 0))
                 = Fin (match alt with Some a => a | None => 0 end * 0.3048))
    by (destruct alt; reflexivity).
  rewrite Halt.
  cbn [pf_sub pf_neg pf_add pf_mul pf_sq math_sqrt].
  unfold Rminus at 1 2.
  rewrite sum_sq_not_neg.
  cbn [bind pf_mul pf_sq pf_add math_sqrt].
  rewrite sum_sq_not_neg.
  cbn [bind pf_div].
  replace (Reqb 1000 0) with false by (symmetry; apply Reqb_false; lra).
  reflexivity.
Qed.

Lemma speed_sq_value (h v : R) :
  (sin h * v) ^ 2 + (cos h * v) ^ 2 = v ^ 2.
Proof.
  pose proof (sin2_cos2 h) as H. unfold Rsqr in H.
  replace ((sin h * v) ^ 2 + (cos h * v) ^ 2)
    with ((sin h * sin h + cos h * cos h) * v ^ 2) by ring.
  rewrite H. ring.
Qed.

Lemma time_until_closest_moving (flight : Flight) (lat lon v : R) :
  ground_speed (position flight) = Some v -> v <> 0 ->
  time_until_closest flight lat lon =
  Ok (if Rltb (t_cpa_value flight lat lon) 0 then PInf
      else Fin (t_cpa_value flight lat lon * 60)).
Proof.
  intros Hs Hv.
  unfold time_until_closest, t_cpa_value.
  destruct flight as [n c i a [lat0 lon0 alt spd hd]];
    cbn [position latitude longitude ground_speed heading] in *.
  subst spd. cbn [get pf_eqb].
  replace (Reqb v 0) with false by (symmetry; apply Reqb_false; exact Hv).
  set (h := match hd with Some h => h | None => 0 end).
  assert (Hh : get hd (Fin 0) = Fin h) by (destruct hd; reflexivity).
  rewrite Hh. unfold deg2rad, math_pi. cbn [pf_mul pf_div].
  replace (Reqb 180 0) with false by (symmetry; apply Reqb_false; lra).
  cbn [bind math_sin math_cos pf_mul pf_sub pf_neg pf_add pf_sq pf_eqb].
  assert (Hsq : (sin (h * PI / 180) * v) ^ 2 + (cos (h * PI / 180) * v) ^ 2 <> 0).
  { rewrite speed_sq_value. apply pow_nonzero. exact Hv. }
  replace (Reqb ((sin (h * PI / 180) * v) ^ 2 + (cos (h * PI / 180) * v) ^ 2) 0)
    with false by (symmetry; apply Reqb_false; exact Hsq).
  cbn [negb pf_div].
  replace (Reqb ((sin (h * PI / 180) * v) ^ 2 + (cos (h * PI / 180) * v) ^ 2) 0)
    with false by (symmetry; apply Reqb_false; exact Hsq).
  cbn [bind pf_ltb pf_mul].
  unfold Rminus.
  destruct (Rltb _ 0); reflexivity.
Qed.

Lemma time_until_closest_still (flight : Flight) (lat lon : R) :
  ground_speed (position flight) = None \/ ground_speed (position flight) = Some 0 ->
  time_until_closest flight lat lon = Ok PInf.
Proof.
  intros H. unfold time_until_closest.
  destruct H as [-> | ->]; cbn [get pf_eqb];
    replace (Reqb 0 0) with true by (symmetry; apply Reqb_true; reflexivity);
    reflexivity.
Qed.


(** ** Worked examples *)

Lemma time_until_closest_total (flight : Flight) (lat lon : R) :
  exists t, time_until_closest flight lat lon = Ok t.
Proof.
  destruct (ground_speed (position flight)) as [v|] eqn:Hs.
  - destruct (Req_dec_T v 0) as [-> | Hv].
    + exists PInf. apply time_until_closest_still. right. exact Hs.
    + eexists. apply (time_until_closest_moving flight lat lon v Hs Hv).
  - exists PInf. apply time_until_closest_still. left. exact Hs.
Qed.

(** C1: for the flight one degree north of the observer at (0,0), at
    altitude 0, 500 km/h, heading 180, [calculate_distance] returns 111 and
    [time_until_closest] returns 0 minutes (not the 13.3 minutes of the
    true closest approach): the latitude offset is paired with the sine
    (east) component of the velocity, so the dot product vanishes. *)
Theorem closing_example_evaluates :
  calculate_distance flight_closing 0 0 = Ok (Fin 111) /\
  time_until_closest flight_closing 0 0 = Ok (Fin 0).
Proof.
  split.
  - rewrite calculate_distance_value. do 2 f_equal.
    unfold distance_value, flight_closing.
    cbn [position latitude longitude altitude].
    replace ((1 - 0) * 111) with 111 by ring.
    replace ((0 - 0) * 111) with 0 by ring.
    replace (111 ^ 2 + 0 ^ 2) with (111 ^ 2) by ring.
    rewrite sqrt_pow2 by lra.
    replace ((111 * 1000) ^ 2 + (0 * 0.3048) ^ 2) with (111000 ^ 2) by ring.
    rewrite sqrt_pow2 by lra.
    lra.
  - rewrite (time_until_closest_moving flight_closing 0 0 500) by (reflexivity || lra).
    assert (Ht : t_cpa_value flight_closing 0 0 = 0).
    { unfold t_cpa_value, flight_closing.
      cbn [position latitude longitude ground_speed heading].
      replace (180 * PI / 180) with PI by field.
      rewrite sin_PI. unfold Rdiv. ring. }
    rewrite Ht.
    replace (Rltb 0 0) with false by (symmetry; apply Rltb_false; lra).
    f_equal. f_equal. ring.
Qed.

(** C2: for the same flight heading 0 (away from the observer)
    [time_until_closest] returns 0 minutes, not +infinity: the computed
    t_cpa is 0, not negative. *)
Theorem receding_example_evaluates :
  time_until_closest flight_receding 0 0 = Ok (Fin 0) /\
  time_until_closest flight_receding 0 0 <> Ok PInf.
Proof.
  assert (H : time_until_closest flight_receding 0 0 = Ok (Fin 0));
    [|split; [exact H | rewrite H; discriminate]].
  rewrite (time_until_closest_moving flight_receding 0 0 500) by (reflexivity || lra).
  assert (Ht : t_cpa_value flight_receding 0 0 = 0).
  { unfold t_cpa_value, flight_receding.
    cbn [position latitude longitude ground_speed heading].
    replace (0 * PI / 180) with 0 by field.
    rewrite sin_0. unfold Rdiv. ring. }
  rewrite Ht.
  replace (Rltb 0 0) with false by (symmetry; apply Rltb_false; lra).
  f_equal. f_equal. ring.
Qed.

(** ** Decision engine *)

(** C4: [should_send_alert] never raises and returns the conjunction of
    the three threshold tests: it is true exactly when the altitude in
    meters (missing altitude read as +infinity), the distance and the time
    until closest approach are each at most their threshold, and false as
    soon as one test fails. *)
Theorem should_send_alert_conjunction (cfg : Config) (flight : Flight) (lat lon : R) :
  exists distance_km minutes,
    calculate_distance flight lat lon = Ok distance_km /\
    time_until_closest flight lat lon = Ok minutes /\
    let altitude_ok :=
      pf_leb (feet_to_meters (get (altitude (position flight)) PInf))
             (ALERT_ALTITUDE_THRESHOLD_M cfg) in
    let distance_ok := pf_leb distance_km (ALERT_DISTANCE_THRESHOLD_KM cfg) in
    let time_ok := pf_leb minutes (ALERT_TIME_THRESHOLD_MIN cfg) in
    (should_send_alert cfg flight lat lon = Ok true <->
       altitude_ok = true /\ distance_ok = true /\ time_ok = true) /\
    (altitude_ok = false \/ distance_ok = false \/ time_ok = false ->
       should_send_alert cfg flight lat lon = Ok false).
Proof.
  destruct (time_until_closest_total flight lat lon) as [t Ht].
  exists (Fin (distance_value flight lat lon)), t.
  split; [apply calculate_distance_value|].
  split; [exact Ht|].
  cbv zeta. unfold should_send_alert.
  rewrite calculate_distance_value, Ht. cbn [bind].
  split.
  - split.
    + intros H. injection H as H.
      apply andb_true_iff in H as [H H3]. apply andb_true_iff in H as [H1 H2].
      auto.
    + intros (H1 & H2 & H3). rewrite H1, H2, H3. reflexivity.
  - intros [H | [H | H]]; rewrite H.
    + reflexivity.
    + rewrite andb_false_r. reflexivity.
    + rewrite andb_false_r. reflexivity.
Qed.

(** C5: a flight without an altitude is never low, and with a finite
    alert altitude threshold it never triggers an alert, wherever the
    observer is. *)
Theorem missing_altitude_never_alerts (cfg : Config) (flight : Flight) (lat lon : R) :
  altitude (position flight) = None ->
  pf_finite (ALERT_ALTITUDE_THRESHOLD_M cfg) = true ->
  is_low_altitude cfg flight = false /\
  should_send_alert cfg flight lat lon = Ok false.
Proof.
  intros Halt Hfin. split.
  - unfold is_low_altitude. rewrite Halt. cbn [get].
    rewrite feet_to_meters_PInf. reflexivity.
  - destruct (time_until_closest_total flight lat lon) as [t Ht].
    unfold should_send_alert.
    rewrite calculate_distance_value, Ht, Halt. cbn [bind get].
    rewrite feet_to_meters_PInf.
    destruct (ALERT_ALTITUDE_THRESHOLD_M cfg); try discriminate Hfin.
    reflexivity.
Qed.

(** C6: with ground speed 0 or absent, [time_until_closest] returns
    +infinity for every heading and position; in particular it raises
    nothing. *)
Theorem zero_speed_is_infinite (flight : Flight) (lat lon : R) :
  ground_speed (position flight) = None \/
  ground_speed (position flight) = Some 0 ->
  time_until_closest flight lat lon = Ok PInf.
Proof.
  intros Hspeed. unfold time_until_closest.
  assert (Hzero : get (ground_speed (position flight)) (Fin 0) = Fin 0)
    by (destruct Hspeed as [-> | ->]; reflexivity).
  rewrite Hzero. cbn [pf_eqb].
  assert (Htest : Reqb 0 0 = true) by (apply Reqb_true; reflexivity).
  rewrite Htest. reflexivity.
Qed.

(** C7: with a nonzero ground speed, [time_until_closest] returns
    +infinity when t_cpa = -(dx*vx + dy*vy)/(vx^2 + vy^2) is negative and
    t_cpa * 60 otherwise. *)
Theorem moving_returns_cpa_minutes (flight : Flight) (lat lon v : R) :
  ground_speed (position flight) = Some v -> v <> 0 ->
  (t_cpa_value flight lat lon < 0 ->
     time_until_closest flight lat lon = Ok PInf) /\
  (~ t_cpa_value flight lat lon < 0 ->
     time_until_closest flight lat lon = Ok (Fin (t_cpa_value flight lat lon * 60))).
Proof.
  intros Hs Hv.
  rewrite (time_until_closest_moving flight lat lon v Hs Hv).
  split; intros H.
  - apply Rltb_true in H. rewrite H. reflexivity.
  - apply Rltb_false in H. rewrite H. reflexivity.
Qed.

(** C8: [calculate_distance] returns 0 exactly when the flight is at the
    observer's latitude and longitude and its altitude (0 when absent) is
    0 meters. *)
Theorem calculate_distance_zero_iff (flight : Flight) (lat lon : R) :
  calculate_distance flight lat lon = Ok (Fin 0) <->
  latitude (position flight) = lat /\
  longitude (position flight) = lon /\
  feet_to_meters (get (altitude (position flight)) (Fin 0)) = Fin 0.
Proof.
  rewrite calculate_distance_value. unfold distance_value. cbv zeta.
  set (alt := match altitude (position flight) with Some a => a | None => 0 end).
  assert (Halt : feet_to_meters (get (altitude (position flight)) (Fin 0))
                 = Fin (alt * 0.3048))
    by (unfold alt; destruct (altitude (position flight)); reflexivity).
  rewrite Halt.
  set (dx := (latitude (position flight) - lat) * 111).
  set (dy := (longitude (position flight) - lon) * 111).
  assert (Hh : 0 <= dx ^ 2 + dy ^ 2) by nra.
  pose proof (sqrt_pos (dx ^ 2 + dy ^ 2)) as Hhp.
  split.
  - intros H. apply Ok_Fin_inj in H.
    assert (Hs : sqrt ((sqrt (dx ^ 2 + dy ^ 2) * 1000) ^ 2 + (alt * 0.3048) ^ 2) = 0)
      by lra.
    apply sqrt_eq_0 in Hs; [|nra].
    assert (Hh0 : sqrt (dx ^ 2 + dy ^ 2) = 0) by nra.
    apply sqrt_eq_0 in Hh0; [|exact Hh].
    assert (Hdx : dx = 0) by nra.
    assert (Hdy : dy = 0) by nra.
    assert (Ha : alt * 0.3048 = 0) by nra.
    unfold dx in Hdx. unfold dy in Hdy.
    repeat split; [lra | lra | now rewrite Ha].
  - intros (Hlat & Hlon & Ha). apply Fin_inj in Ha.
    do 2 f_equal.
    assert (Hdx : dx = 0) by (unfold dx; rewrite Hlat; ring).
    assert (Hdy : dy = 0) by (unfold dy; rewrite Hlon; ring).
    rewrite Hdx, Hdy, Ha.
    replace (0 ^ 2 + 0 ^ 2) with 0 by ring.
    rewrite sqrt_0.
    replace ((0 * 1000) ^ 2 + 0 ^ 2) with 0 by ring.
    rewrite sqrt_0. lra.
Qed.

(** C10: [time_until_closest] always returns, and what it returns is
    +infinity or a finite value that is not negative. *)
Theorem time_until_closest_not_negative (flight : Flight) (lat lon : R) :
  exists t,
    time_until_closest flight lat lon = Ok t /\
    (t = PInf \/ exists r, t = Fin r /\ 0 <= r).
Proof.
  destruct (ground_speed (position flight)) as [v|] eqn:Hs.
  - destruct (Req_dec_T v 0) as [-> | Hv].
    + exists PInf. split; [|now left].
      apply time_until_closest_still. right. exact Hs.
    + rewrite (time_until_closest_moving flight lat lon v Hs Hv).
      destruct (Rltb (t_cpa_value flight lat lon) 0) eqn:Hlt.
      * exists PInf. split; [reflexivity | now left].
      * eexists. split; [reflexivity|]. right. eexists. split; [reflexivity|].
        apply Rltb_false in Hlt. lra.
  - exists PInf. split; [|now left].
    apply time_until_closest_still. left. exact Hs.
Qed.

(** ** Flight labels *)

Lemma usable_label_false (v : option string) :
  usable_label v = false <-> blank_label v.
Proof.
  unfold usable_label, blank_label. destruct v as [s|].
  - split.
    + intros H. apply andb_false_iff in H as [H | H];
        apply negb_false_iff, String.eqb_eq in H; subst; auto.
    + intros [H | [H | H]]; try discriminate; injection H as ->; reflexivity.
  - split; auto.
Qed.

Lemma usable_label_true (v : option string) :
  usable_label v = true <-> ~ blank_label v.
Proof.
  rewrite <- usable_label_false. destruct (usable_label v); split; congruence.
Qed.

(** C3, as the spec words it, fails twice: with no label at all the
    result is "N/A", not "unknown"; and a first label "N/A" is skipped
    although it is not empty. *)
Lemma flight_id_unknown_counterexample :
  (number flight_unlabelled = None /\
   callsign flight_unlabelled = None /\
   icao_24bit flight_unlabelled = None /\
   flight_id flight_unlabelled <> Some "unknown"%string) /\
  (number flight_placeholder_number = Some "N/A"%string /\
   flight_id flight_placeholder_number <> number flight_placeholder_number).
Proof. repeat split; discriminate. Qed.

(** C3 (amended): when number, callsign and icao_24bit are each absent,
    empty or the text "N/A", [flight_id] is "N/A"; otherwise it is the
    first of the three, in that order, that is none of these. *)
Theorem flight_id_first_usable (flight : Flight) :
  (blank_label (number flight) -> blank_label (callsign flight) ->
   blank_label (icao_24bit flight) -> flight_id flight = Some "N/A"%string) /\
  (~ blank_label (number flight) -> flight_id flight = number flight) /\
  (blank_label (number flight) -> ~ blank_label (callsign flight) ->
   flight_id flight = callsign flight) /\
  (blank_label (number flight) -> blank_label (callsign flight) ->
   ~ blank_label (icao_24bit flight) -> flight_id flight = icao_24bit flight).
Proof.
  unfold flight_id. cbn [filter].
  repeat split; intros;
    repeat match goal with
      | H : blank_label _ |- _ => apply usable_label_false in H; rewrite H
      | H : ~ blank_label _ |- _ => apply usable_label_true in H; rewrite H
      end; reflexivity.
Qed.

Lemma flight_id_first_usable_witness :
  flight_id flight_placeholder_number = Some "BAW117"%string.
Proof.
  apply (proj1 (proj2 (proj2 (flight_id_first_usable flight_placeholder_number)))).
  - right. right. reflexivity.
  - intros [H | [H | H]]; discriminate H.
Defined.

(** ** The message of the email *)

Lemma flight_over_low (label : string) (feet : R) :
  is_low_altitude cfg_example (flight_over label feet) = Rltb (feet * 0.3048) 500.
Proof. reflexivity. Qed.

Lemma flight_over_distance (label : string) (feet : R) :
  0 <= feet ->
  distance_value (flight_over label feet) 0 0 = feet * 0.3048 / 1000.
Proof.
  intros Hfeet. unfold distance_value, flight_over.
  cbn [position latitude longitude altitude].
  replace (((0 - 0) * 111) ^ 2 + ((0 - 0) * 111) ^ 2) with 0 by ring.
  rewrite sqrt_0.
  replace ((0 * 1000) ^ 2 + (feet * 0.3048) ^ 2) with ((feet * 0.3048) ^ 2) by ring.
  rewrite sqrt_pow2 by lra. reflexivity.
Qed.

Lemma flight_over_t_cpa (label : string) (feet : R) :
  t_cpa_value (flight_over label feet) 0 0 = 0.
Proof.
  unfold t_cpa_value, flight_over.
  cbn [position latitude longitude ground_speed heading].
  unfold Rdiv. ring.
Qed.

Lemma flight_over_alerts (label : string) (feet : R) :
  0 <= feet -> feet * 0.3048 <= 1000 ->
  should_send_alert cfg_example (flight_over label feet) 0 0 = Ok true.
Proof.
  intros Hfeet Hceil. unfold should_send_alert.
  rewrite calculate_distance_value.
  rewrite (time_until_closest_moving (flight_over label feet) 0 0 500)
    by (reflexivity || lra).
  rewrite flight_over_distance, flight_over_t_cpa by exact Hfeet.
  replace (Rltb 0 0) with false by (symmetry; apply Rltb_false; lra).
  cbn [bind position flight_over altitude get].
  rewrite feet_to_meters_Fin.
  cbn [cfg_example ALERT_ALTITUDE_THRESHOLD_M ALERT_DISTANCE_THRESHOLD_KM
       ALERT_TIME_THRESHOLD_MIN pf_leb].
  replace (Rleb (feet * 0.3048) 1000) with true by (symmetry; apply Rleb_true; lra).
  replace (Rleb (feet * 0.3048 / 1000) 50) with true by (symmetry; apply Rleb_true; lra).
  replace (Rleb (0 * 60) 30) with true by (symmetry; apply Rleb_true; lra).
  reflexivity.
Qed.

Lemma flight_overhead_not_low : is_low_altitude cfg_example flight_overhead = false.
Proof.
  unfold flight_overhead. rewrite flight_over_low. apply Rltb_false. lra.
Qed.

Lemma flight_overhead_alerts :
  should_send_alert cfg_example flight_overhead 0 0 = Ok true.
Proof. apply flight_over_alerts; lra. Qed.

(** The branch that does assign [alert_message]. *)
Lemma process_flight_low (cfg : Config) (format_f : nat -> pyfloat -> string)
    (lat lon a : R) (alert_message : option string) (flight : Flight) (t : pyfloat) :
  altitude (position flight) = Some a ->
  time_until_closest flight lat lon = Ok t ->
  is_low_altitude cfg flight = true ->
  should_send_alert cfg flight lat lon = Ok true ->
  let message :=
    (LOW_PREFIX ++ detail cfg format_f (flight_id flight)
                     (format_f 0%nat (feet_to_meters (Fin a)))
                     (Fin (distance_value flight lat lon)) t)%string in
  process_flight cfg format_f lat lon alert_message flight
  = ([Print message;
      SendEmail ("Aircraft " ++ str (TARGET_AIRCRAFT_CODE cfg) ++ " Alert") message],
     Ok (Some message)).
Proof.
  intros Halt Ht Hlow Hsend. cbv zeta. unfold process_flight.
  rewrite calculate_distance_value, Ht, Hlow, Hsend, Halt. reflexivity.
Qed.

(** The branch that leaves [alert_message] as it was. *)
Lemma process_flight_not_low (cfg : Config) (format_f : nat -> pyfloat -> string)
    (lat lon a : R) (alert_message : option string) (flight : Flight) (t : pyfloat) :
  altitude (position flight) = Some a ->
  time_until_closest flight lat lon = Ok t ->
  is_low_altitude cfg flight = false ->
  should_send_alert cfg flight lat lon = Ok true ->
  let line :=
    (INFO_PREFIX ++ detail_info cfg format_f (flight_id flight)
                      (format_f 0%nat (feet_to_meters (Fin a)))
                      (Fin (distance_value flight lat lon)) t)%string in
  process_flight cfg format_f lat lon alert_message flight
  = match alert_message with
    | None => ([Print line], Raise UnboundLocalError)
    | Some earlier =>
        ([Print line;
          SendEmail ("Aircraft " ++ str (TARGET_AIRCRAFT_CODE cfg) ++ " Alert") earlier],
         Ok (Some earlier))
    end.
Proof.
  intros Halt Ht Hlow Hsend. cbv zeta. unfold process_flight.
  rewrite calculate_distance_value, Ht, Hlow, Hsend, Halt.
  destruct alert_message; reflexivity.
Qed.

(** C9: a target flight that meets the alert thresholds without being
    low takes the branch that never assigns [alert_message] and then
    passes that variable to [send_email_alert].  If the variable is still
    unbound the pass raises [UnboundLocalError] after the console line,
    and [monitor_flights] ends there when this is the first target flight
    of the process; if an earlier low flight bound it, that earlier
    message is what is mailed. *)
Theorem alert_message_not_assigned (cfg : Config) (format_f : nat -> pyfloat -> string)
    (lat lon a : R) (flight : Flight) :
  altitude (position flight) = Some a ->
  is_low_altitude cfg flight = false ->
  should_send_alert cfg flight lat lon = Ok true ->
  exists line,
    process_flight cfg format_f lat lon None flight
      = ([Print line], Raise UnboundLocalError) /\
    (forall earlier,
       process_flight cfg format_f lat lon (Some earlier) flight
       = ([Print line;
           SendEmail ("Aircraft " ++ str (TARGET_AIRCRAFT_CODE cfg) ++ " Alert") earlier],
          Ok (Some earlier))) /\
    (forall others later,
       is_target_aircraft cfg flight = true ->
       snd (monitor_flights cfg format_f lat lon
              (mkResponse true (flight :: others) :: later))
       = Raise UnboundLocalError).
Proof.
  intros Halt Hlow Hsend.
  destruct (time_until_closest_total flight lat lon) as [t Ht].
  pose proof (fun am => process_flight_not_low cfg format_f lat lon a am flight t
                          Halt Ht Hlow Hsend) as Hstep.
  cbv zeta in Hstep.
  eexists. split; [exact (Hstep None)|]. split.
  - intros earlier. exact (Hstep (Some earlier)).
  - intros others later Htarget.
    unfold monitor_flights. cbn [monitor_from]. unfold poll_cycle.
    cbn [found flights filter]. rewrite Htarget.
    cbn [process_flights]. rewrite (Hstep None). reflexivity.
Qed.

Lemma alert_message_not_assigned_witness :
  exists line,
    process_flight cfg_example format_whole 0 0 None flight_overhead
      = ([Print line], Raise UnboundLocalError) /\
    (forall earlier,
       process_flight cfg_example format_whole 0 0 (Some earlier) flight_overhead
       = ([Print line;
           SendEmail ("Aircraft " ++ str (TARGET_AIRCRAFT_CODE cfg_example) ++ " Alert")
                     earlier],
          Ok (Some earlier))) /\
    (forall others later,
       is_target_aircraft cfg_example flight_overhead = true ->
       snd (monitor_flights cfg_example format_whole 0 0
              (mkResponse true (flight_overhead :: others) :: later))
       = Raise UnboundLocalError).
Proof.
  apply (alert_message_not_assigned cfg_example format_whole 0 0 2000 flight_overhead).
  - reflexivity.
  - exact flight_overhead_not_low.
  - exact flight_overhead_alerts.
Defined.

(** ** Instances *)

Lemma missing_altitude_never_alerts_witness :
  is_low_altitude cfg_example flight_unlabelled = false /\
  should_send_alert cfg_example flight_unlabelled 0 0 = Ok false.
Proof.
  apply (missing_altitude_never_alerts cfg_example flight_unlabelled 0 0);
    reflexivity.
Defined.

Lemma zero_speed_is_infinite_witness :
  time_until_closest flight_unlabelled 0 0 = Ok PInf.
Proof.
  apply (zero_speed_is_infinite flight_unlabelled 0 0).
  left. reflexivity.
Defined.

Lemma moving_returns_cpa_minutes_witness :
  (t_cpa_value flight_east 0 0 < 0 ->
     time_until_closest flight_east 0 0 = Ok PInf) /\
  (~ t_cpa_value flight_east 0 0 < 0 ->
     time_until_closest flight_east 0 0
     = Ok (Fin (t_cpa_value flight_east 0 0 * 60))).
Proof.
  apply (moving_returns_cpa_minutes flight_east 0 0 500).
  - reflexivity.
  - lra.
Defined.


(** One poll in which a low flight is followed by a flight that alerts
    without being low: both emails carry the first flight's message. *)
Lemma stale_message_example :
  exists message_low line_overhead,
    monitor_flights cfg_example format_whole 0 0
      [mkResponse true [flight_low; flight_overhead]]
    = ([Print "Found 2 flights in radius.";
        Print (NEWLINE ++ "--- 2 A400(s) detected ---");
        Print message_low;
        SendEmail "Aircraft A400 Alert" message_low;
        Print line_overhead;
        SendEmail "Aircraft A400 Alert" message_low;
        Print "---"],
       Ok (Some message_low)).
Proof.
  assert (Hlow : is_low_altitude cfg_example flight_low = true).
  { unfold flight_low. rewrite flight_over_low. apply Rltb_true. lra. }
  assert (Hsend : should_send_alert cfg_example flight_low 0 0 = Ok true)
    by (apply flight_over_alerts; lra).
  destruct (time_until_closest_total flight_low 0 0) as [t Ht].
  pose proof (process_flight_low cfg_example format_whole 0 0 1000 None flight_low t
                eq_refl Ht Hlow Hsend) as Hfirst.
  cbv zeta in Hfirst.
  destruct (time_until_closest_total flight_overhead 0 0) as [t' Ht'].
  pose proof (fun am => process_flight_not_low cfg_example format_whole 0 0 2000 am
                          flight_overhead t' eq_refl Ht' flight_overhead_not_low
                          flight_overhead_alerts) as Hsecond.
  cbv zeta in Hsecond.
  do 2 eexists.
  unfold monitor_flights. cbn [monitor_from]. unfold poll_cycle.
  cbn [found flights filter].
  replace (is_target_aircraft cfg_example flight_low) with true by reflexivity.
  replace (is_target_aircraft cfg_example flight_overhead) with true by reflexivity.
  cbn [process_flights]. rewrite Hfirst. cbn [io_bind print io_ret app].
  rewrite Hsecond. reflexivity.
Qed.

(** ** The worked examples in binary64 *)

Module Binary64Examples.
Import PrimFloat.

(** With the C library's [sin] of the double nearest to pi, a tiny
    positive number, the flight of C1 gets a t_cpa just below zero and the
    function answers +infinity. *)
Lemma closing_example_binary64 (libm_sin libm_cos : float -> float) :
  libm_sin Binary64.pi = 0x1.1a62633145c07p-53%float ->
  libm_cos Binary64.pi = (-1)%float ->
  Binary64.time_until_closest libm_sin libm_cos 1%float 0%float 500%float 180%float
                              0%float 0%float
  = Ok infinity.
Proof.
  intros Hsin Hcos. unfold Binary64.time_until_closest.
  replace (180 * Binary64.pi / 180)%float with Binary64.pi by (vm_compute; reflexivity).
  rewrite Hsin, Hcos. vm_compute. reflexivity.
Qed.

(** With [sin 0 = 0] and [cos 0 = 1] the flight of C2 gets t_cpa = -0.0,
    which is not below zero, and the function answers -0.0 minutes. *)
Lemma receding_example_binary64 (libm_sin libm_cos : float -> float) :
  libm_sin 0%float = 0%float ->
  libm_cos 0%float = 1%float ->
  Binary64.time_until_closest libm_sin libm_cos 1%float 0%float 500%float 0%float
                              0%float 0%float
  = Ok (-0)%float.
Proof.
  intros Hsin Hcos. unfold Binary64.time_until_closest.
  replace (0 * Binary64.pi / 180)%float with 0%float by (vm_compute; reflexivity).
  rewrite Hsin, Hcos. vm_compute. reflexivity.
Qed.

End Binary64Examples.

(** * Further properties of the code *)

(** ** Distances *)












(** X4: [calculate_distance] and [time_until_closest] depend on the
    flight's and the observer's coordinates only through their
    difference: moving both by the same amounts changes neither. *)
Theorem geometry_translation_invariant (flight : Flight) (lat lon dlat dlon : R) :
  calculate_distance (moved_by flight dlat dlon) (lat + dlat) (lon + dlon)
  = calculate_distance flight lat lon /\
  time_until_closest (moved_by flight dlat dlon) (lat + dlat) (lon + dlon)
  = time_until_closest flight lat lon.
Proof.
  assert (Hsub : forall a b d, pf_sub (Fin (a + d)) (Fin (b + d)) = pf_sub (Fin a) (Fin b)).
  { intros a b d. cbn [pf_sub pf_neg pf_add]. f_equal. ring. }
  split.
  - unfold calculate_distance, moved_by, with_position.
    cbn [position latitude longitude altitude]. rewrite !Hsub. reflexivity.
  - unfold time_until_closest, moved_by, with_position.
    cbn [position latitude longitude ground_speed heading]. rewrite !Hsub. reflexivity.
Qed.

(** X5: [calculate_distance] is the same for a flight displaced from the
    observer by some offset and for the flight displaced by the opposite
    offset. *)
Theorem calculate_distance_mirror (flight : Flight) (lat lon dlat dlon : R) :
  latitude (position flight) = lat -> longitude (position flight) = lon ->
  calculate_distance (moved_by flight dlat dlon) lat lon
  = calculate_distance (moved_by flight (- dlat) (- dlon)) lat lon.
Proof.
  intros Hlat Hlon.
  rewrite !calculate_distance_value. do 2 f_equal.
  unfold distance_value, moved_by, with_position.
  cbn [position latitude longitude altitude]. rewrite Hlat, Hlon.
  replace (((lat + - dlat - lat) * 111) ^ 2 + ((lon + - dlon - lon) * 111) ^ 2)
    with (((lat + dlat - lat) * 111) ^ 2 + ((lon + dlon - lon) * 111) ^ 2) by ring.
  reflexivity.
Qed.

Lemma calculate_distance_mirror_witness :
  calculate_distance (moved_by flight_unlabelled 1 2) 0 0
  = calculate_distance (moved_by flight_unlabelled (- 1) (- 2)) 0 0.
Proof.
  apply (calculate_distance_mirror flight_unlabelled 0 0 1 2); reflexivity.
Defined.

(** ** Closest approach *)











(** ** Decision engine, further *)

Lemma pf_leb_trans (x y z : pyfloat) :
  pf_leb x y = true -> pf_leb y z = true -> pf_leb x z = true.
Proof.
  destruct x, y, z; cbn [pf_leb]; try congruence.
  intros H1 H2. apply Rleb_true in H1, H2. apply Rleb_true. lra.
Qed.

(** X10: a flight whose ground speed is 0 or absent never triggers an
    alert unless the time threshold itself is +infinity. *)
Theorem still_flight_never_alerts (cfg : Config) (flight : Flight) (lat lon : R) :
  ground_speed (position flight) = None \/ ground_speed (position flight) = Some 0 ->
  ALERT_TIME_THRESHOLD_MIN cfg <> PInf ->
  should_send_alert cfg flight lat lon = Ok false.
Proof.
  intros Hs Hthr. unfold should_send_alert.
  rewrite calculate_distance_value, (time_until_closest_still flight lat lon Hs).
  cbn [bind]. f_equal.
  destruct (ALERT_TIME_THRESHOLD_MIN cfg); try congruence; cbn [pf_leb];
    apply andb_false_r.
Qed.

Lemma still_flight_never_alerts_witness :
  should_send_alert cfg_example flight_unlabelled 0 0 = Ok false.
Proof.
  apply (still_flight_never_alerts cfg_example flight_unlabelled 0 0).
  - left. reflexivity.
  - discriminate.
Defined.

(** X11: raising the three alert thresholds never withdraws an alert. *)
Theorem wider_thresholds_keep_alert (cfg : Config) (flight : Flight) (lat lon : R)
    (distance minutes alt : pyfloat) :
  pf_leb (ALERT_DISTANCE_THRESHOLD_KM cfg) distance = true ->
  pf_leb (ALERT_TIME_THRESHOLD_MIN cfg) minutes = true ->
  pf_leb (ALERT_ALTITUDE_THRESHOLD_M cfg) alt = true ->
  should_send_alert cfg flight lat lon = Ok true ->
  should_send_alert (with_thresholds cfg distance minutes alt) flight lat lon = Ok true.
Proof.
  intros Hd Hm Ha. unfold should_send_alert.
  destruct (time_until_closest_total flight lat lon) as [t Ht].
  rewrite calculate_distance_value, Ht. cbn [bind].
  cbn [with_thresholds ALERT_DISTANCE_THRESHOLD_KM ALERT_TIME_THRESHOLD_MIN
       ALERT_ALTITUDE_THRESHOLD_M].
  intros H. assert (H' := f_equal (fun r => match r with Ok b => b | Raise _ => false end) H).
  cbv beta iota in H'.
  apply andb_true_iff in H' as [H' H3]. apply andb_true_iff in H' as [H1 H2].
  rewrite (pf_leb_trans _ _ _ H1 Ha), (pf_leb_trans _ _ _ H2 Hd),
    (pf_leb_trans _ _ _ H3 Hm).
  reflexivity.
Qed.

Lemma wider_thresholds_keep_alert_witness :
  should_send_alert (with_thresholds cfg_example (Fin 80) PInf (Fin 1000))
                    flight_overhead 0 0 = Ok true.
Proof.
  apply (wider_thresholds_keep_alert cfg_example flight_overhead 0 0
           (Fin 80) PInf (Fin 1000)).
  - apply Rleb_true. lra.
  - reflexivity.
  - apply Rleb_true. lra.
  - exact flight_overhead_alerts.
Defined.

(** X12: when one of the three alert thresholds is NaN no flight ever
    triggers an alert. *)
Theorem nan_threshold_never_alerts (cfg : Config) (flight : Flight) (lat lon : R) :
  ALERT_DISTANCE_THRESHOLD_KM cfg = NaN \/
  ALERT_TIME_THRESHOLD_MIN cfg = NaN \/
  ALERT_ALTITUDE_THRESHOLD_M cfg = NaN ->
  should_send_alert cfg flight lat lon = Ok false.
Proof.
  assert (Hnan : forall x, pf_leb x NaN = false) by (intros []; reflexivity).
  intros H. unfold should_send_alert.
  destruct (time_until_closest_total flight lat lon) as [t Ht].
  rewrite calculate_distance_value, Ht. cbn [bind]. f_equal.
  destruct H as [-> | [-> | ->]]; rewrite Hnan.
  - rewrite andb_false_r. reflexivity.
  - apply andb_false_r.
  - reflexivity.
Qed.

Lemma nan_threshold_never_alerts_witness :
  should_send_alert (with_thresholds cfg_example NaN (Fin 30) (Fin 1000))
                    flight_overhead 0 0 = Ok false.
Proof.
  apply (nan_threshold_never_alerts
           (with_thresholds cfg_example NaN (Fin 30) (Fin 1000)) flight_overhead 0 0).
  left. reflexivity.
Defined.

Lemma low_when_alert_below_ceiling (cfg : Config) (flight : Flight) (lat lon ceiling : R) :
  ALERT_ALTITUDE_THRESHOLD_M cfg = Fin ceiling ->
  ceiling < IZR (LOW_ALTITUDE_THRESHOLD_M cfg) ->
  should_send_alert cfg flight lat lon = Ok true ->
  is_low_altitude cfg flight = true.
Proof.
  intros Hc Hlt. unfold should_send_alert, is_low_altitude.
  destruct (time_until_closest_total flight lat lon) as [t Ht].
  rewrite calculate_distance_value, Ht, Hc. cbn [bind].
  intros H. assert (H' := f_equal (fun r => match r with Ok b => b | Raise _ => false end) H).
  cbv beta iota in H'.
  apply andb_true_iff in H' as [H' _]. apply andb_true_iff in H' as [H1 _].
  destruct (altitude (position flight)) as [a|]; cbn [get] in *.
  - rewrite feet_to_meters_Fin in *. cbn [pf_leb pf_ltb] in *.
    apply Rleb_true in H1. apply Rltb_true. lra.
  - rewrite feet_to_meters_PInf in H1. discriminate H1.
Qed.

(** X13: when the alert altitude threshold is finite and below the
    low-altitude threshold, every flight that triggers an alert is a
    low-altitude flight. *)
Theorem alert_implies_low (cfg : Config) (flight : Flight) (lat lon ceiling : R) :
  ALERT_ALTITUDE_THRESHOLD_M cfg = Fin ceiling ->
  ceiling < IZR (LOW_ALTITUDE_THRESHOLD_M cfg) ->
  should_send_alert cfg flight lat lon = Ok true ->
  is_low_altitude cfg flight = true.
Proof.
  intros Hc Hlt Hsend.
  exact (low_when_alert_below_ceiling cfg flight lat lon ceiling Hc Hlt Hsend).
Qed.

Lemma flight_over_alerts_under (cfg : Config) (label : string) (feet D T A : R) :
  ALERT_DISTANCE_THRESHOLD_KM cfg = Fin D ->
  ALERT_TIME_THRESHOLD_MIN cfg = Fin T ->
  ALERT_ALTITUDE_THRESHOLD_M cfg = Fin A ->
  0 <= feet -> feet * 0.3048 <= A -> feet * 0.3048 / 1000 <= D -> 0 <= T ->
  should_send_alert cfg (flight_over label feet) 0 0 = Ok true.
Proof.
  intros HD HT HA Hfeet Hceil Hdist Htime. unfold should_send_alert.
  rewrite calculate_distance_value.
  rewrite (time_until_closest_moving (flight_over label feet) 0 0 500)
    by (reflexivity || lra).
  rewrite flight_over_distance, flight_over_t_cpa by exact Hfeet.
  replace (Rltb 0 0) with false by (symmetry; apply Rltb_false; lra).
  cbn [bind position flight_over altitude get].
  rewrite feet_to_meters_Fin, HD, HT, HA. cbn [pf_leb].
  replace (Rleb (feet * 0.3048) A) with true by (symmetry; apply Rleb_true; lra).
  replace (Rleb (feet * 0.3048 / 1000) D) with true by (symmetry; apply Rleb_true; lra).
  replace (Rleb (0 * 60) T) with true by (symmetry; apply Rleb_true; lra).
  reflexivity.
Qed.

Lemma alert_implies_low_witness :
  is_low_altitude (with_thresholds cfg_example (Fin 50) (Fin 30) (Fin 400))
                  flight_low = true.
Proof.
  apply (alert_implies_low (with_thresholds cfg_example (Fin 50) (Fin 30) (Fin 400))
           flight_low 0 0 400).
  - reflexivity.
  - cbn. lra.
  - apply (flight_over_alerts_under _ _ 1000 50 30 400); try reflexivity; lra.
Defined.

(** ** Poll loop, further *)

Lemma should_send_alert_total (cfg : Config) (flight : Flight) (lat lon : R) :
  exists b, should_send_alert cfg flight lat lon = Ok b.
Proof.
  destruct (time_until_closest_total flight lat lon) as [t Ht].
  unfold should_send_alert. rewrite calculate_distance_value, Ht.
  eexists. reflexivity.
Qed.

Lemma io_bind_trace {A B : Type} (m : io A) (k : A -> io B) :
  fst (io_bind m k)
  = (fst m ++ match snd m with Ok a => fst (k a) | Raise _ => [] end)%list.
Proof.
  destruct m as [t [a | e]]; cbn [io_bind fst snd].
  - destruct (k a). reflexivity.
  - symmetry. apply app_nil_r.
Qed.

Lemma io_bind_result {A B : Type} (m : io A) (k : A -> io B) :
  snd (io_bind m k) = match snd m with Ok a => snd (k a) | Raise e => Raise e end.
Proof.
  destruct m as [t [a | e]]; cbn [io_bind fst snd].
  - destruct (k a). reflexivity.
  - reflexivity.
Qed.


Lemma io_bind_ret_r {A : Type} (m : io A) : io_bind m io_ret = m.
Proof.
  destruct m as [t [a | e]]; cbn [io_bind io_ret]; [|reflexivity].
  rewrite app_nil_r. reflexivity.
Qed.


(** Every way one pass of the loop body can end. *)
Lemma process_flight_cases (cfg : Config) (format_f : nat -> pyfloat -> string)
    (lat lon : R) (alert_message : option string) (flight : Flight)
    (t : pyfloat) (send : bool) :
  time_until_closest flight lat lon = Ok t ->
  should_send_alert cfg flight lat lon = Ok send ->
  let subject := ("Aircraft " ++ str (TARGET_AIRCRAFT_CODE cfg) ++ " Alert")%string in
  let skip := Print "Alert thresholds not met. Skipping email." in
  process_flight cfg format_f lat lon alert_message flight
  = match altitude (position flight) with
    | None => ([], Raise ValueError)
    | Some a =>
        let d := Fin (distance_value flight lat lon) in
        let alt := format_f 0%nat (feet_to_meters (Fin a)) in
        if is_low_altitude cfg flight then
          let message := (LOW_PREFIX ++ detail cfg format_f (flight_id flight) alt d t)%string in
          ([Print message; if send then SendEmail subject message else skip],
           Ok (Some message))
        else
          let line := (INFO_PREFIX
                       ++ detail_info cfg format_f (flight_id flight) alt d t)%string in
          if send then
            match alert_message with
            | None => ([Print line], Raise UnboundLocalError)
            | Some earlier => ([Print line; SendEmail subject earlier], Ok (Some earlier))
            end
          else ([Print line; skip], Ok alert_message)
    end.
Proof.
  intros Ht Hsend. cbv zeta. unfold process_flight.
  rewrite calculate_distance_value, Ht, Hsend.
  destruct (altitude (position flight)) as [a|];
    destruct (is_low_altitude cfg flight); destruct send; destruct alert_message;
    reflexivity.
Qed.



(** X15: a flight without an altitude makes the loop body raise
    [ValueError] before anything is printed for it (the f-string applies
    a float format to the text "unknown"); when it is the first target
    flight of a poll, [monitor_flights] ends with that error. *)
Theorem missing_altitude_raises (cfg : Config) (format_f : nat -> pyfloat -> string)
    (lat lon : R) (flight : Flight) :
  altitude (position flight) = None ->
  (forall alert_message,
     process_flight cfg format_f lat lon alert_message flight = ([], Raise ValueError)) /\
  (forall others later,
     is_target_aircraft cfg flight = true ->
     snd (monitor_flights cfg format_f lat lon
            (mkResponse true (flight :: others) :: later))
     = Raise ValueError).
Proof.
  intros Halt.
  destruct (time_until_closest_total flight lat lon) as [t Ht].
  destruct (should_send_alert_total cfg flight lat lon) as [b Hb].
  assert (Hstep : forall am,
            process_flight cfg format_f lat lon am flight = ([], Raise ValueError)).
  { intros am.
    rewrite (process_flight_cases cfg format_f lat lon am flight t b Ht Hb), Halt.
    reflexivity. }
  split; [exact Hstep|].
  intros others later Htarget.
  unfold monitor_flights. cbn [monitor_from]. unfold poll_cycle.
  cbn [found flights filter]. rewrite Htarget.
  cbn [process_flights]. rewrite Hstep. reflexivity.
Qed.

Lemma missing_altitude_raises_witness :
  (forall alert_message,
     process_flight cfg_example format_whole 0 0 alert_message flight_unlabelled
     = ([], Raise ValueError)) /\
  (forall others later,
     is_target_aircraft cfg_example flight_unlabelled = true ->
     snd (monitor_flights cfg_example format_whole 0 0
            (mkResponse true (flight_unlabelled :: others) :: later))
     = Raise ValueError).
Proof.
  apply (missing_altitude_raises cfg_example format_whole 0 0 flight_unlabelled).
  reflexivity.
Defined.


Lemma process_flight_email (cfg : Config) (format_f : nat -> pyfloat -> string)
    (lat lon : R) (alert_message : option string) (flight : Flight)
    (subject message : string) :
  In (SendEmail subject message)
     (fst (process_flight cfg format_f lat lon alert_message flight)) ->
  subject = ("Aircraft " ++ str (TARGET_AIRCRAFT_CODE cfg) ++ " Alert")%string /\
  should_send_alert cfg flight lat lon = Ok true.
Proof.
  destruct (time_until_closest_total flight lat lon) as [t Ht].
  destruct (should_send_alert_total cfg flight lat lon) as [b Hb].
  rewrite (process_flight_cases cfg format_f lat lon alert_message flight t b Ht Hb).
  cbv zeta.
  destruct (altitude (position flight)); destruct (is_low_altitude cfg flight);
    destruct b; destruct alert_message; cbn [fst In]; intros H;
    repeat match goal with
      | H : _ \/ _ |- _ => destruct H
      | H : False |- _ => contradiction
      | H : Print _ = SendEmail _ _ |- _ => discriminate H
      | H : SendEmail _ _ = SendEmail _ _ |- _ => injection H as Hs Hm
      end;
    (split; [symmetry; exact Hs | exact Hb]).
Qed.

Lemma process_flights_email (cfg : Config) (format_f : nat -> pyfloat -> string)
    (lat lon : R) (subject message : string) (target : list Flight) :
  forall alert_message,
    In (SendEmail subject message)
       (fst (process_flights cfg format_f lat lon alert_message target)) ->
    subject = ("Aircraft " ++ str (TARGET_AIRCRAFT_CODE cfg) ++ " Alert")%string /\
    exists flight, In flight target /\ should_send_alert cfg flight lat lon = Ok true.
Proof.
  induction target as [|f rest IH]; intros am H.
  - cbn in H. contradiction.
  - cbn [process_flights] in H. rewrite io_bind_trace in H.
    apply in_app_or in H as [H | H].
    + apply process_flight_email in H as [Hs Hsend].
      split; [exact Hs|]. exists f. split; [left; reflexivity | exact Hsend].
    + destruct (snd (process_flight cfg format_f lat lon am f)) as [am'|e];
        [|contradiction].
      apply IH in H as [Hs (g & Hin & Hsend)].
      split; [exact Hs|]. exists g. split; [right; exact Hin | exact Hsend].
Qed.

(** X16: every email of a poll cycle has the subject "Aircraft <code>
    Alert" and answers to a flight of the feed's answer that is a target
    aircraft and meets the alert thresholds; without the [found] flag no
    email is sent. *)
Theorem emails_only_for_alerting_targets (cfg : Config)
    (format_f : nat -> pyfloat -> string) (lat lon : R)
    (alert_message : option string) (flights_data : Response)
    (subject message : string) :
  In (SendEmail subject message)
     (fst (poll_cycle cfg format_f lat lon alert_message flights_data)) ->
  found flights_data = true /\
  subject = ("Aircraft " ++ str (TARGET_AIRCRAFT_CODE cfg) ++ " Alert")%string /\
  exists flight,
    In flight (flights flights_data) /\
    is_target_aircraft cfg flight = true /\
    should_send_alert cfg flight lat lon = Ok true.
Proof.
  unfold poll_cycle. rewrite io_bind_trace. cbn [print fst snd].
  intros H. apply in_app_or in H as [H | H].
  { destruct H as [H | H]; [discriminate H | contradiction]. }
  destruct (found flights_data); [|cbn in H; contradiction].
  split; [reflexivity|].
  destruct (filter (is_target_aircraft cfg) (flights flights_data)) as [|f rest] eqn:Hf.
  { cbn in H. destruct H as [H | H]; [discriminate H | contradiction]. }
  rewrite io_bind_trace in H. cbn [print fst snd] in H.
  apply in_app_or in H as [H | H].
  { destruct H as [H | H]; [discriminate H | contradiction]. }
  rewrite io_bind_trace in H.
  apply in_app_or in H as [H | H].
  - apply process_flights_email in H as [Hs (g & Hin & Hsend)].
    split; [exact Hs|]. exists g.
    rewrite <- Hf in Hin. apply filter_In in Hin as [Hin Htarget].
    auto.
  - destruct (snd (process_flights cfg format_f lat lon alert_message (f :: rest)));
      [|contradiction].
    cbn in H. destruct H as [H | H]; [discriminate H | contradiction].
Qed.

Lemma emails_only_for_alerting_targets_witness :
  found (mkResponse true [flight_low]) = true /\
  "Aircraft A400 Alert"%string
  = ("Aircraft " ++ str (TARGET_AIRCRAFT_CODE cfg_example) ++ " Alert")%string /\
  exists flight,
    In flight (flights (mkResponse true [flight_low])) /\
    is_target_aircraft cfg_example flight = true /\
    should_send_alert cfg_example flight 0 0 = Ok true.
Proof.
  destruct (time_until_closest_total flight_low 0 0) as [t Ht].
  apply (emails_only_for_alerting_targets cfg_example format_whole 0 0 None
           (mkResponse true [flight_low]) "Aircraft A400 Alert"
           (LOW_PREFIX ++ detail cfg_example format_whole (flight_id flight_low)
                            (format_whole 0%nat (feet_to_meters (Fin 1000)))
                            (Fin (distance_value flight_low 0 0)) t)).
  unfold poll_cycle. cbn [found flights filter].
  replace (is_target_aircraft cfg_example flight_low) with true by reflexivity.
  cbn [process_flights].
  rewrite (process_flight_low cfg_example format_whole 0 0 1000 None flight_low t
             eq_refl Ht).
  - cbn. right. right. right. left. reflexivity.
  - unfold flight_low. rewrite flight_over_low. apply Rltb_true. lra.
  - apply flight_over_alerts; lra.
Defined.

Lemma count_emails_app (t1 t2 : list event) :
  count_emails (t1 ++ t2) = (count_emails t1 + count_emails t2)%nat.
Proof.
  induction t1 as [|[line | subject message] rest IH]; cbn [count_emails app].
  - reflexivity.
  - exact IH.
  - rewrite IH. reflexivity.
Qed.

Lemma process_flight_one_email (cfg : Config) (format_f : nat -> pyfloat -> string)
    (lat lon : R) (alert_message : option string) (flight : Flight) :
  (count_emails (fst (process_flight cfg format_f lat lon alert_message flight)) <= 1)%nat.
Proof.
  destruct (time_until_closest_total flight lat lon) as [t Ht].
  destruct (should_send_alert_total cfg flight lat lon) as [b Hb].
  rewrite (process_flight_cases cfg format_f lat lon alert_message flight t b Ht Hb).
  cbv zeta.
  destruct (altitude (position flight)); destruct (is_low_altitude cfg flight);
    destruct b; destruct alert_message; cbn [fst count_emails]; auto.
Qed.

Lemma process_flights_emails (cfg : Config) (format_f : nat -> pyfloat -> string)
    (lat lon : R) (target : list Flight) :
  forall alert_message,
    (count_emails (fst (process_flights cfg format_f lat lon alert_message target))
     <= List.length target)%nat.
Proof.
  induction target as [|f rest IH]; intros am.
  - cbn. auto.
  - cbn [process_flights List.length]. rewrite io_bind_trace, count_emails_app.
    pose proof (process_flight_one_email cfg format_f lat lon am f) as H1.
    destruct (snd (process_flight cfg format_f lat lon am f)) as [am'|e].
    + specialize (IH am'). apply (Nat.add_le_mono _ 1 _ _ H1 IH).
    + cbn [count_emails]. rewrite Nat.add_0_r.
      apply (Nat.le_trans _ 1); [exact H1 | apply le_n_S, Nat.le_0_l].
Qed.

(** X17: a poll cycle sends at most one email per target aircraft in the
    feed's answer. *)
Theorem one_email_per_target (cfg : Config) (format_f : nat -> pyfloat -> string)
    (lat lon : R) (alert_message : option string) (flights_data : Response) :
  (count_emails (fst (poll_cycle cfg format_f lat lon alert_message flights_data))
   <= List.length (filter (is_target_aircraft cfg) (flights flights_data)))%nat.
Proof.
  unfold poll_cycle. rewrite io_bind_trace, count_emails_app. cbn [print fst snd count_emails].
  destruct (found flights_data); [|cbn; apply Nat.le_0_l].
  destruct (filter (is_target_aircraft cfg) (flights flights_data)) as [|f rest].
  { cbn. apply Nat.le_0_l. }
  rewrite io_bind_trace, count_emails_app. cbn [print fst snd count_emails].
  rewrite io_bind_trace, count_emails_app.
  pose proof (process_flights_emails cfg format_f lat lon (f :: rest) alert_message) as H.
  destruct (snd (process_flights cfg format_f lat lon alert_message (f :: rest)));
    cbn [io_bind print io_ret fst count_emails app]; rewrite ?Nat.add_0_r; exact H.
Qed.

(** An invariant of [alert_message] kept by the loop body is kept by the
    whole run. *)
Lemma monitor_from_invariant (cfg : Config) (format_f : nat -> pyfloat -> string)
    (lat lon : R) (Good : option string -> Prop) (Bad : exn -> Prop) :
  (forall am flight, Good am ->
     match snd (process_flight cfg format_f lat lon am flight) with
     | Ok am' => Good am'
     | Raise e => ~ Bad e
     end) ->
  forall feed am, Good am ->
    match snd (monitor_from cfg format_f lat lon am feed) with
    | Ok am' => Good am'
    | Raise e => ~ Bad e
    end.
Proof.
  intros Hstep.
  assert (Hflights : forall target am, Good am ->
            match snd (process_flights cfg format_f lat lon am target) with
            | Ok am' => Good am'
            | Raise e => ~ Bad e
            end).
  { induction target as [|f rest IH]; intros am Ham.
    - exact Ham.
    - cbn [process_flights]. rewrite io_bind_result.
      specialize (Hstep am f Ham).
      destruct (snd (process_flight cfg format_f lat lon am f)) as [am'|e];
        [apply IH; exact Hstep | exact Hstep]. }
  assert (Hpoll : forall flights_data am, Good am ->
            match snd (poll_cycle cfg format_f lat lon am flights_data) with
            | Ok am' => Good am'
            | Raise e => ~ Bad e
            end).
  { intros flights_data am Ham. unfold poll_cycle.
    rewrite io_bind_result. cbn [print snd].
    destruct (found flights_data); [|exact Ham].
    destruct (filter (is_target_aircraft cfg) (flights flights_data)) as [|f rest].
    - exact Ham.
    - rewrite io_bind_result. cbn [print snd]. rewrite io_bind_result.
      specialize (Hflights (f :: rest) am Ham).
      destruct (snd (process_flights cfg format_f lat lon am (f :: rest)));
        exact Hflights. }
  induction feed as [|flights_data later IH]; intros am Ham.
  - exact Ham.
  - cbn [monitor_from]. rewrite io_bind_result.
    specialize (Hpoll flights_data am Ham).
    destruct (snd (poll_cycle cfg format_f lat lon am flights_data)) as [am'|e];
      [apply IH; exact Hpoll | exact Hpoll].
Qed.

(** X18: once [alert_message] is bound it stays bound: a run that starts
    with a message never raises [UnboundLocalError], and if it returns, a
    message is still there. *)
Theorem bound_message_stays_bound (cfg : Config) (format_f : nat -> pyfloat -> string)
    (lat lon : R) (earlier : string) (feed : list Response) :
  match snd (monitor_from cfg format_f lat lon (Some earlier) feed) with
  | Ok alert_message => alert_message <> None
  | Raise e => e <> UnboundLocalError
  end.
Proof.
  apply (monitor_from_invariant cfg format_f lat lon
           (fun am => am <> None) (fun e => e = UnboundLocalError));
    [|discriminate].
  intros am flight Ham.
  destruct (time_until_closest_total flight lat lon) as [t Ht].
  destruct (should_send_alert_total cfg flight lat lon) as [b Hb].
  rewrite (process_flight_cases cfg format_f lat lon am flight t b Ht Hb).
  cbv zeta.
  destruct (altitude (position flight)); destruct (is_low_altitude cfg flight);
    destruct b; destruct am; cbn [snd]; congruence.
Qed.

(** X19: [monitor_flights] never raises [ZeroDivisionError], whatever
    the feed answers: every division it reaches has a nonzero divisor. *)
Theorem monitor_never_divides_by_zero (cfg : Config)
    (format_f : nat -> pyfloat -> string) (lat lon : R) (feed : list Response) :
  snd (monitor_flights cfg format_f lat lon feed) <> Raise ZeroDivisionError.
Proof.
  unfold monitor_flights.
  pose proof (monitor_from_invariant cfg format_f lat lon
                (fun _ => True) (fun e => e = ZeroDivisionError)) as H.
  assert (Hstep : forall am flight, True ->
            match snd (process_flight cfg format_f lat lon am flight) with
            | Ok _ => True
            | Raise e => e <> ZeroDivisionError
            end).
  { intros am flight _.
    destruct (time_until_closest_total flight lat lon) as [t Ht].
    destruct (should_send_alert_total cfg flight lat lon) as [b Hb].
    rewrite (process_flight_cases cfg format_f lat lon am flight t b Ht Hb).
    cbv zeta.
    destruct (altitude (position flight)); destruct (is_low_altitude cfg flight);
      destruct b; destruct am; cbn [snd]; solve [exact I | discriminate]. }
  specialize (H Hstep feed None I).
  destruct (snd (monitor_from cfg format_f lat lon None feed)) as [am|e].
  - discriminate.
  - intros Heq. injection Heq as ->. apply H. reflexivity.
Qed.


(** X21: nothing is remembered between polls: when the feed keeps
    answering with the same low target flight inside the alert
    thresholds, every poll sends one more email, so n polls send n. *)
Theorem every_poll_mails_again (cfg : Config) (format_f : nat -> pyfloat -> string)
    (lat lon a : R) (flight : Flight) (n : nat) :
  is_target_aircraft cfg flight = true ->
  altitude (position flight) = Some a ->
  is_low_altitude cfg flight = true ->
  should_send_alert cfg flight lat lon = Ok true ->
  forall alert_message,
    count_emails (fst (monitor_from cfg format_f lat lon alert_message
                         (repeat (mkResponse true [flight]) n))) = n /\
    (n <> 0%nat ->
     exists message,
       snd (monitor_from cfg format_f lat lon alert_message
              (repeat (mkResponse true [flight]) n)) = Ok (Some message)).
Proof.
  intros Htarget Halt Hlow Hsend.
  destruct (time_until_closest_total flight lat lon) as [t Ht].
  pose proof (fun am => process_flight_low cfg format_f lat lon a am flight t
                          Halt Ht Hlow Hsend) as Hstep.
  cbv zeta in Hstep.
  set (message := (LOW_PREFIX ++ detail cfg format_f (flight_id flight)
                                   (format_f 0%nat (feet_to_meters (Fin a)))
                                   (Fin (distance_value flight lat lon)) t)%string) in *.
  assert (Hpoll : forall am,
            exists line1 line2 subject,
              poll_cycle cfg format_f lat lon am (mkResponse true [flight])
              = ([Print line1; Print line2; Print message; SendEmail subject message;
                  Print "---"], Ok (Some message))).
  { intros am. unfold poll_cycle. cbn [found flights filter]. rewrite Htarget.
    cbn [process_flights]. rewrite Hstep. do 3 eexists. reflexivity. }
  assert (Hrun : forall k am,
            count_emails (fst (monitor_from cfg format_f lat lon am
                                 (repeat (mkResponse true [flight]) k))) = k /\
            (k <> 0%nat ->
             snd (monitor_from cfg format_f lat lon am
                    (repeat (mkResponse true [flight]) k)) = Ok (Some message))).
  { induction k as [|k IH]; intros am.
    - split; [reflexivity | congruence].
    - cbn [repeat monitor_from].
      destruct (Hpoll am) as (l1 & l2 & subj & ->).
      rewrite io_bind_trace, io_bind_result. cbn [fst snd].
      destruct (IH (Some message)) as [Hcount Hres].
      rewrite count_emails_app, Hcount. split; [reflexivity|].
      intros _. destruct k as [|k]; [reflexivity|].
      apply Hres. discriminate. }
  intros am. split; [apply Hrun|].
  intros Hn. exists message. apply Hrun. exact Hn.
Qed.

Lemma every_poll_mails_again_witness :
  count_emails (fst (monitor_from cfg_example format_whole 0 0 None
                       (repeat (mkResponse true [flight_low]) 3))) = 3%nat /\
  (3%nat <> 0%nat ->
   exists message,
     snd (monitor_from cfg_example format_whole 0 0 None
            (repeat (mkResponse true [flight_low]) 3)) = Ok (Some message)).
Proof.
  refine (every_poll_mails_again cfg_example format_whole 0 0 1000 flight_low 3
            _ _ _ _ None).
  - reflexivity.
  - reflexivity.
  - unfold flight_low. rewrite flight_over_low. apply Rltb_true. lra.
  - apply flight_over_alerts; lra.
Defined.

(** ** Labels and units, further *)

(** X22: the label [flight_id] yields is never missing and never empty:
    it is one of the record's three labels or the text "N/A". *)
Theorem flight_id_never_empty (flight : Flight) :
  exists label,
    flight_id flight = Some label /\
    label <> ""%string /\
    (label = "N/A"%string \/
     In (Some label) [number flight; callsign flight; icao_24bit flight]).
Proof.
  assert (Husable : forall v, usable_label v = true ->
            exists s, v = Some s /\ s <> ""%string).
  { intros [s|] H; [|discriminate H]. exists s. split; [reflexivity|].
    cbn [usable_label] in H. apply andb_true_iff in H as [H _].
    apply negb_true_iff, String.eqb_neq in H. exact H. }
  unfold flight_id. cbn [filter].
  destruct (usable_label (number flight)) eqn:H1.
  { destruct (Husable _ H1) as (s & Hs & Hne). exists s. cbn [next].
    split; [exact Hs|]. split; [exact Hne|]. right. left. exact Hs. }
  destruct (usable_label (callsign flight)) eqn:H2.
  { destruct (Husable _ H2) as (s & Hs & Hne). exists s. cbn [next].
    split; [exact Hs|]. split; [exact Hne|]. right. right. left. exact Hs. }
  destruct (usable_label (icao_24bit flight)) eqn:H3.
  { destruct (Husable _ H3) as (s & Hs & Hne). exists s. cbn [next].
    split; [exact Hs|]. split; [exact Hne|]. right. right. right. left. exact Hs. }
  exists "N/A"%string. cbn [next].
  split; [reflexivity|]. split; [discriminate|]. left. reflexivity.
Qed.

